(** * The calculation example: Examples/Example/main/main.c

    The translation unit has two functions, [calc] and [main].  What they
    do is selected by preprocessor symbols: [calc] keeps one of two bodies
    with [#if defined(CONFIG_ADDITION)] / [#elif defined(CONFIG_SUBTRACTION)],
    both functions print more under [#ifdef CONFIG_DEBUG], and [main] calls
    [calc] under [#ifdef CONFIG_CALCULATION].  The banner of [main] is chosen
    by an ordinary [if] over the VALUES of [CONFIG_ADDITION] and
    [CONFIG_SUBSTRACTION] (spelled with an extra S in the source).

    The embedding is a function from the build configuration (the macro
    table seen by main.c) to the trace of events of one run and the exit
    code.  A configuration under which main.c is not a C program (an
    identifier is used that nothing declares) has no run: [None]. *)

From Stdlib Require Import ZArith List String Ascii Bool Lia.
From Stdlib Require Import DecimalString.
From Stdlib Require DecimalPos DecimalZ.
Import ListNotations.

Local Open Scope string_scope.
Local Open Scope Z_scope.

(** ** Build configuration *)

(** A preprocessor symbol: [None] when it is not defined, [Some v] when it
    is defined with the integer [v] as replacement ([-DCONFIG_X] gives 1).
    A symbol defined with an empty replacement, or with one that is not an
    integer, is not represented. *)
Definition macro := option Z.

(** [defined(X)] and [#ifdef X]. *)
Definition defined (m : macro) : bool :=
  match m with
  | Some _ => true
  | None => false
  end.

(** The macro table.  [MODE] is the text of the macro of that name, which
    main.c takes from utility.h and hands to [printf] as its only
    argument under [CONFIG_DEBUG]: a text without conversions, printed as
    it is. *)
Record Config : Type := mkConfig {
  CONFIG_ADDITION : macro;
  CONFIG_SUBTRACTION : macro;
  CONFIG_SUBSTRACTION : macro;
  CONFIG_DEBUG : macro;
  CONFIG_CALCULATION : macro;
  MODE : string
}.

(** The three situations the configuration can select. *)
Inductive OperationMode : Type :=
  | Addition
  | Subtraction
  | NoOperation.

(** ** Output *)

(** What a run does that can be observed: text handed to [printf], and
    calls of [calc] with their two arguments. *)
Inductive event : Type :=
  | Print (text : string)
  | Call (operand1 operand2 : Z).

Definition trace := list event.

(** Standard output is the concatenation of the printed texts. *)
Fixpoint stdout (t : trace) : string :=
  match t with
  | [] => ""
  | Print s :: t' => s ++ stdout t'
  | Call _ _ :: t' => stdout t'
  end.

Definition LF : ascii := "010"%char.

(** The C string ["\n"]. *)
Definition nl : string := String LF "".

(** The conversion [%i] of printf: signed decimal. *)
Definition fmt_i (z : Z) : string := NilZero.string_of_int (Z.to_int z).

(** [printf("%i %c %i = %i\n", operand1, op, operand2, result)] *)
Definition printf_result (operand1 : Z) (op : ascii) (operand2 result : Z) : string :=
  fmt_i operand1 ++ " " ++ String op (" " ++ fmt_i operand2 ++ " = " ++ fmt_i result ++ nl).

(** The lines of a text: the pieces between line feeds; a last piece that
    no line feed closes is a line too. *)
Fixpoint lines (s : string) : list string :=
  match s with
  | EmptyString => []
  | String c s' =>
      if Ascii.eqb c LF then "" :: lines s'
      else match lines s' with
           | [] => [String c ""]
           | l :: ls => String c l :: ls
           end
  end.

(** No line feed occurs in the text. *)
Fixpoint no_lf (s : string) : bool :=
  match s with
  | EmptyString => true
  | String c s' => negb (Ascii.eqb c LF) && no_lf s'
  end.

(** ** The type int *)

(** [int] is 32 bits wide, two's complement. *)
Definition INT_MIN : Z := -2147483648.
Definition INT_MAX : Z := 2147483647.

(** The values an [int] can hold. *)
Definition int_range (z : Z) : Prop := INT_MIN <= z <= INT_MAX.

(** The value an [int] object holds after an integer is stored in it:
    the integer itself when it fits, and else the value in range that
    differs from it by a multiple of 2^32. *)
Definition as_int (z : Z) : Z := (z - INT_MIN) mod 2 ^ 32 + INT_MIN.

(** ** utility.h *)

(** Modelled from the spec: [add] is declared in utility.h, which is not
    among the sources.  The specification gives it as
    result = operand1 + operand2, on integers.  What [calc] keeps of it
    is what fits its [int result], see [calc_body]. *)
Definition add (operand1 operand2 : Z) : Z := operand1 + operand2.

(** Modelled from the spec: [sub] is declared in utility.h, which is not
    among the sources.  The specification gives it as
    result = operand1 - operand2, on integers, as for [add]. *)
Definition sub (operand1 operand2 : Z) : Z := operand1 - operand2.

(** Modelled from the spec: the macro [MODE] is defined in utility.h, which
    is not among the sources.  The specification describes what debug
    builds print first as a mode banner, an extra line that carries the
    name of the mode (Addition in Addition mode). *)
Definition mode_name_line (m : OperationMode) : string :=
  match m with
  | Addition => "Addition" ++ nl
  | Subtraction => "Subtraction" ++ nl
  | NoOperation => "None" ++ nl
  end.

(** ** calc *)

(** The body of [calc] that the preprocessor keeps:
    [#if defined(CONFIG_ADDITION)] ... [#elif defined(CONFIG_SUBTRACTION)]. *)
Definition calc_mode (cfg : Config) : OperationMode :=
  if defined (CONFIG_ADDITION cfg) then Addition
  else if defined (CONFIG_SUBTRACTION cfg) then Subtraction
  else NoOperation.

(** Text kept by [#ifdef CONFIG_DEBUG]. *)
Definition ifdef_debug (cfg : Config) (t : trace) : trace :=
  if defined (CONFIG_DEBUG cfg) then t else [].

(** The statements of the kept body: the debug print, then the locals
    [int result] and [char op].  [result] is an [int]: it holds the value
    of the helper as an [int] holds it.  With neither symbol defined
    nothing declares [result] and [op], and the [printf] that follows does
    not compile. *)
Definition calc_body (cfg : Config) (operand1 operand2 : Z)
  : option (trace * (Z * ascii)) :=
  match calc_mode cfg with
  | Addition =>
      Some (ifdef_debug cfg [Print "Addition"],
            (as_int (add operand1 operand2), "+"%char))
  | Subtraction =>
      Some (ifdef_debug cfg [Print "Substraction"],
            (as_int (sub operand1 operand2), "-"%char))
  | NoOperation => None
  end.

(** The values of [result] and [op] when [calc] reaches its [printf]. *)
Definition calculate (cfg : Config) (operand1 operand2 : Z) : option (Z * ascii) :=
  option_map snd (calc_body cfg operand1 operand2).

(** [void calc(int operand1, int operand2)]: the events of one call. *)
Definition calc (cfg : Config) (operand1 operand2 : Z) : option trace :=
  match calc_body cfg operand1 operand2 with
  | Some (dbg, (result, op)) =>
      Some (dbg ++ [Print (printf_result operand1 op operand2 result)])%list
  | None => None
  end.

(** ** main *)

(** A scalar controls an [if] by being different from 0. *)
Definition truth (v : Z) : bool := negb (v =? 0).

(** The branch taken by
    [if (CONFIG_ADDITION) ... else if (CONFIG_SUBSTRACTION) ... else ...].
    Both names are read as expressions, so both have to be defined for the
    statement to compile, whichever branch runs. *)
Definition main_mode (cfg : Config) : option OperationMode :=
  match CONFIG_ADDITION cfg, CONFIG_SUBSTRACTION cfg with
  | Some a, Some s =>
      Some (if truth a then Addition
            else if truth s then Subtraction
            else NoOperation)
  | _, _ => None
  end.

(** The line printed in each branch. *)
Definition banner (m : OperationMode) : string :=
  match m with
  | Addition => "Adding 37 to 73" ++ nl
  | Subtraction => "Substracting 37 from 73" ++ nl
  | NoOperation => "No operation specified; nothing to calculate" ++ nl
  end.

(** main.c compiles: [calc] is part of the file whether it is called or
    not, so its body has to compile too. *)
Definition compiles (cfg : Config) : bool :=
  match calc_mode cfg, main_mode cfg with
  | NoOperation, _ => false
  | _, None => false
  | _, Some _ => true
  end.

(** The statement [calc(73, 37);] kept by [#ifdef CONFIG_CALCULATION]. *)
Definition ifdef_calculation (cfg : Config) : option trace :=
  if defined (CONFIG_CALCULATION cfg) then
    match calc cfg 73 37 with
    | Some t => Some (Call 73 37 :: t)
    | None => None
    end
  else Some [].

(** [int main(int argc, char **argv)]: the events of the run and the value
    returned. *)
Definition main (cfg : Config) (argc : Z) (argv : list string) : option (trace * Z) :=
  if compiles cfg then
    match main_mode cfg, ifdef_calculation cfg with
    | Some m, Some called =>
        Some ((ifdef_debug cfg [Print (MODE cfg)]
               ++ [Print ("Calculation Example" ++ nl)]
               ++ [Print (banner m)]
               ++ called)%list,
              0)
    | _, _ => None
    end
  else None.

(** ** The output as the specification lists it *)

(** The text of the result line without its line feed. *)
Definition result_text (operand1 : Z) (op : ascii) (operand2 result : Z) : string :=
  fmt_i operand1 ++ " " ++ String op (" " ++ fmt_i operand2 ++ " = " ++ fmt_i result).

(** Section 6 of the specification, read as the whole of standard output:
    the debug banner if Debug is enabled, the title line, the line
    of the mode, and if the calculation gate is enabled the line
    operand1, symbol, operand2, the equals sign and result.  Nothing
    else. *)
Definition listed_output (cfg : Config) (m : OperationMode)
    (operand1 : Z) (symbol : ascii) (operand2 result : Z) : string :=
  (if defined (CONFIG_DEBUG cfg) then MODE cfg else "")
  ++ ("Calculation Example" ++ nl)
  ++ banner m
  ++ (if defined (CONFIG_CALCULATION cfg)
      then printf_result operand1 symbol operand2 result
      else "").

(** The two bodies of [calc]: operation name (printed in debug builds),
    result and symbol go together. *)
Definition calc_case (a b : Z) (name : string) (result : Z) (op : ascii) : Prop :=
  (name = "Addition" /\ result = as_int (a + b) /\ op = "+"%char)
  \/ (name = "Substraction" /\ result = as_int (a - b) /\ op = "-"%char).

(** ** Sample configurations *)

(** Addition selected, calculation enabled, no debug output. *)
Definition cfg_addition : Config :=
  mkConfig (Some 1) None (Some 0) None (Some 1) "".

(** Addition selected, calculation and debug output enabled; [MODE] as the
    specification describes it. *)
Definition cfg_addition_debug : Config :=
  mkConfig (Some 1) None (Some 0) (Some 1) (Some 1) (mode_name_line Addition).

(** Only [CONFIG_SUBTRACTION] defined: the second body of [calc]. *)
Definition cfg_calc_subtraction : Config :=
  mkConfig None (Some 1) None None (Some 1) "".

(** The subtraction symbols are 1 under both spellings, [CONFIG_ADDITION]
    is 0, the calculation gate is closed. *)
Definition cfg_subtraction_gate_off : Config :=
  mkConfig (Some 0) (Some 1) (Some 1) None None "".

(** The same with the calculation gate open. *)
Definition cfg_subtraction_gate_on : Config :=
  mkConfig (Some 0) (Some 1) (Some 1) None (Some 1) "".

(** No operation selected (both symbols 0), calculation gate closed. *)
Definition cfg_none_gate_off : Config :=
  mkConfig (Some 0) (Some 0) (Some 0) None None "".

(** No operation selected (both symbols 0), calculation gate open. *)
Definition cfg_none_gate_on : Config :=
  mkConfig (Some 0) (Some 0) (Some 0) None (Some 1) "".

(** ** Variations of a configuration and observations of a run *)

(** The same build with [CONFIG_SUBTRACTION] redefined or undefined. *)
Definition with_SUBTRACTION (cfg : Config) (m : macro) : Config :=
  mkConfig (CONFIG_ADDITION cfg) m (CONFIG_SUBSTRACTION cfg)
           (CONFIG_DEBUG cfg) (CONFIG_CALCULATION cfg) (MODE cfg).

(** The same build with [CONFIG_DEBUG] redefined or undefined. *)
Definition with_DEBUG (cfg : Config) (m : macro) : Config :=
  mkConfig (CONFIG_ADDITION cfg) (CONFIG_SUBTRACTION cfg)
           (CONFIG_SUBSTRACTION cfg) m (CONFIG_CALCULATION cfg) (MODE cfg).

(** The calls of [calc] in a run, with their arguments, in order. *)
Fixpoint calls (t : trace) : list (Z * Z) :=
  match t with
  | [] => []
  | Print _ :: t' => calls t'
  | Call a b :: t' => (a, b) :: calls t'
  end.

(** The character [c] does not occur in the text. *)
Fixpoint avoids (c : ascii) (s : string) : bool :=
  match s with
  | EmptyString => true
  | String x s' => negb (Ascii.eqb x c) && avoids c s'
  end.

(** * Properties *)

(** ** Text and lines *)

Lemma append_assoc (s1 s2 s3 : string) :
  (s1 ++ s2) ++ s3 = s1 ++ (s2 ++ s3).
Proof.
  induction s1 as [|c s1 IH]; simpl; congruence.
Qed.

Lemma append_empty_r (s : string) : s ++ "" = s.
Proof.
  induction s as [|c s IH]; simpl; congruence.
Qed.

Lemma no_lf_app (s1 s2 : string) :
  no_lf (s1 ++ s2) = no_lf s1 && no_lf s2.
Proof.
  induction s1 as [|c s1 IH]; simpl.
  - reflexivity.
  - rewrite IH. now rewrite andb_assoc.
Qed.

Lemma no_lf_uint (d : Decimal.uint) :
  no_lf (NilEmpty.string_of_uint d) = true.
Proof.
  induction d; simpl; auto.
Qed.

Lemma no_lf_fmt_i (z : Z) : no_lf (fmt_i z) = true.
Proof.
  unfold fmt_i.
  destruct (Z.to_int z) as [d|d]; simpl.
  - destruct d; simpl; auto using no_lf_uint.
  - destruct d; simpl; auto using no_lf_uint.
Qed.

Lemma printf_result_text (operand1 : Z) (op : ascii) (operand2 result : Z) :
  printf_result operand1 op operand2 result
  = result_text operand1 op operand2 result ++ nl.
Proof.
  unfold printf_result, result_text.
  rewrite !append_assoc. simpl.
  now rewrite !append_assoc.
Qed.

Lemma no_lf_result_text (operand1 : Z) (op : ascii) (operand2 result : Z) :
  Ascii.eqb op LF = false ->
  no_lf (result_text operand1 op operand2 result) = true.
Proof.
  intros Hop. unfold result_text.
  rewrite !no_lf_app. simpl. rewrite Hop. simpl.
  rewrite !no_lf_app. simpl.
  now rewrite !no_lf_fmt_i.
Qed.

(** A text without line feed, closed by one, is one line. *)
Lemma lines_closed (s : string) :
  no_lf s = true -> lines (s ++ nl) = [s].
Proof.
  induction s as [|c s IH]; simpl; intros H.
  - reflexivity.
  - apply andb_true_iff in H as [Hc Hs].
    apply negb_true_iff in Hc. rewrite Hc.
    now rewrite (IH Hs).
Qed.

(** ** The type int *)

Lemma as_int_range (z : Z) : int_range (as_int z).
Proof.
  unfold int_range, as_int, INT_MIN, INT_MAX.
  pose proof (Z.mod_pos_bound (z - -2147483648) (2 ^ 32) eq_refl) as H.
  change (2 ^ 32) with 4294967296 in *. lia.
Qed.

Lemma as_int_fits (z : Z) : int_range z -> as_int z = z.
Proof.
  unfold int_range, as_int, INT_MIN, INT_MAX. intros H.
  change (2 ^ 32) with 4294967296.
  rewrite Z.mod_small by lia. lia.
Qed.

(** Whatever the operands, [result] holds a value of [int]. *)
Lemma calculate_int (cfg : Config) (a b result : Z) (op : ascii) :
  calculate cfg a b = Some (result, op) -> int_range result.
Proof.
  unfold calculate, calc_body.
  destruct (calc_mode cfg); simpl; intros H; try discriminate;
    injection H as <- _; apply as_int_range.
Qed.

(** ** calc *)

(** C1, as stated, fails: the operands 2147483647 and 1 are values of
    [int], their sum is not, and [result] is an [int]; in Addition mode
    the result is not a + b there. *)
Lemma addition_result_is_int :
  calc_mode cfg_addition = Addition
  /\ int_range 2147483647 /\ int_range 1
  /\ exists result,
       calculate cfg_addition 2147483647 1 = Some (result, "+"%char)
       /\ int_range result
       /\ result <> 2147483647 + 1.
Proof.
  split; [reflexivity|].
  split; [unfold int_range, INT_MIN, INT_MAX; lia|].
  split; [unfold int_range, INT_MIN, INT_MAX; lia|].
  eexists. split; [reflexivity|].
  split; [apply as_int_range|].
  vm_compute. discriminate.
Qed.

(** C1, amended: in Addition mode, that is when the preprocessor keeps the
    first body of [calc], the function computes result = a + b and symbol
    '+' for every pair of [int] operands whose sum is a value of [int],
    and prints the line made of them. *)
Theorem calc_addition (cfg : Config) (a b : Z) :
  calc_mode cfg = Addition ->
  int_range a -> int_range b -> int_range (a + b) ->
  calculate cfg a b = Some (a + b, "+"%char)
  /\ exists dbg, calc cfg a b = Some (dbg ++ [Print (printf_result a "+" b (a + b))])%list.
Proof.
  intros Hmode _ _ Hsum.
  unfold calculate, calc, calc_body. rewrite Hmode. simpl.
  unfold add. rewrite (as_int_fits _ Hsum).
  split; [reflexivity|].
  now exists (ifdef_debug cfg [Print "Addition"]).
Qed.

Lemma calc_addition_witness :
  calculate cfg_addition 73 37 = Some (73 + 37, "+"%char)
  /\ exists dbg,
       calc cfg_addition 73 37
       = Some (dbg ++ [Print (printf_result 73 "+" 37 (73 + 37))])%list.
Proof.
  apply (calc_addition cfg_addition 73 37).
  - reflexivity.
  - unfold int_range, INT_MIN, INT_MAX. lia.
  - unfold int_range, INT_MIN, INT_MAX. lia.
  - unfold int_range, INT_MIN, INT_MAX. lia.
Defined.

(** The second body of [calc], where the preprocessor keeps it, computes
    result = a - b and symbol '-' when the difference is a value of
    [int]. *)
Lemma calc_second_body (cfg : Config) (a b : Z) :
  calc_mode cfg = Subtraction ->
  int_range (a - b) ->
  calculate cfg a b = Some (a - b, "-"%char).
Proof.
  intros Hmode Hdiff.
  unfold calculate, calc_body. rewrite Hmode. simpl.
  unfold sub. now rewrite (as_int_fits _ Hdiff).
Qed.

(** No program has the second body of [calc]: a configuration that keeps
    it leaves CONFIG_ADDITION undefined, and [main] does not compile. *)
Lemma calc_second_body_no_run (cfg : Config) (argc : Z) (argv : list string) :
  calc_mode cfg = Subtraction -> main cfg argc argv = None.
Proof.
  unfold main, compiles, main_mode, calc_mode.
  destruct (CONFIG_ADDITION cfg); simpl; [discriminate|].
  now destruct (defined (CONFIG_SUBTRACTION cfg)).
Qed.

(** C2: the code in Subtraction mode.  The build whose symbols select the
    subtraction (CONFIG_ADDITION 0, the subtraction symbol 1 in both
    spellings) prints the banner of the subtraction, and its call
    calc(73, 37) computes result 110 and symbol '+', not 36 and '-':
    CONFIG_ADDITION is defined, so the preprocessor keeps the first body
    of [calc]. *)
Theorem subtraction_mode_adds :
  main_mode cfg_subtraction_gate_on = Some Subtraction
  /\ calc_mode cfg_subtraction_gate_on = Addition
  /\ calculate cfg_subtraction_gate_on 73 37 = Some (110, "+"%char)
  /\ calculate cfg_subtraction_gate_on 73 37 <> Some (73 - 37, "-"%char)
  /\ option_map (fun r => lines (stdout (fst r)))
       (main cfg_subtraction_gate_on 1 ["example"])
     = Some ["Calculation Example"; "Substracting 37 from 73"; "73 + 37 = 110"].
Proof.
  repeat split; try reflexivity.
  vm_compute. discriminate.
Qed.

(** [calc] prints its debug text, then the result line, and nothing else. *)
Lemma calc_some (cfg : Config) (a b : Z) :
  calc_mode cfg <> NoOperation ->
  exists name result op,
    calc_case a b name result op
    /\ calc_body cfg a b = Some (ifdef_debug cfg [Print name], (result, op))
    /\ calc cfg a b
       = Some (ifdef_debug cfg [Print name] ++ [Print (printf_result a op b result)])%list.
Proof.
  intros Hmode. unfold calc, calc_body, calc_case.
  destruct (calc_mode cfg) eqn:E.
  - exists "Addition", (as_int (add a b)), "+"%char. unfold add. auto.
  - exists "Substraction", (as_int (sub a b)), "-"%char. unfold sub. auto 6.
  - contradiction.
Qed.

(** ** main *)

Lemma stdout_app (t1 t2 : trace) :
  stdout (t1 ++ t2)%list = stdout t1 ++ stdout t2.
Proof.
  induction t1 as [|e t1 IH]; simpl.
  - reflexivity.
  - destruct e as [s|x y]; [rewrite IH; now rewrite append_assoc | exact IH].
Qed.

Lemma lines_cons (s r : string) :
  no_lf s = true -> lines (s ++ nl ++ r) = s :: lines r.
Proof.
  change (nl ++ r) with (String LF r).
  induction s as [|c s IH]; simpl; intros H.
  - reflexivity.
  - apply andb_true_iff in H as [Hc Hs].
    apply negb_true_iff in Hc. rewrite Hc.
    now rewrite (IH Hs).
Qed.

(** When [main] has a branch to take, [CONFIG_ADDITION] is defined, and
    the preprocessor keeps the first body of [calc]. *)
Lemma main_mode_calc_mode (cfg : Config) (m : OperationMode) :
  main_mode cfg = Some m -> calc_mode cfg = Addition.
Proof.
  unfold main_mode, calc_mode.
  destruct (CONFIG_ADDITION cfg); [reflexivity | discriminate].
Qed.

Lemma main_mode_compiles (cfg : Config) :
  compiles cfg = true <-> exists m, main_mode cfg = Some m.
Proof.
  unfold compiles. split.
  - destruct (main_mode cfg) as [m|]; [eauto|].
    destruct (calc_mode cfg); discriminate.
  - intros [m Hm].
    now rewrite (main_mode_calc_mode cfg m Hm), Hm.
Qed.

(** The run of a configuration in which [main] takes the branch [m]. *)
Lemma main_run (cfg : Config) (argc : Z) (argv : list string) (m : OperationMode) :
  main_mode cfg = Some m ->
  exists called,
    ifdef_calculation cfg = Some called
    /\ main cfg argc argv
       = Some ((ifdef_debug cfg [Print (MODE cfg)]
                ++ [Print ("Calculation Example" ++ nl)]
                ++ [Print (banner m)]
                ++ called)%list, 0).
Proof.
  intros Hm.
  assert (Hc : compiles cfg = true) by (apply main_mode_compiles; eauto).
  pose proof (main_mode_calc_mode cfg m Hm) as Hadd.
  unfold main. rewrite Hc, Hm.
  unfold ifdef_calculation, calc, calc_body. rewrite Hadd.
  destruct (defined (CONFIG_CALCULATION cfg)); eexists; split; reflexivity.
Qed.

(** What [calc(73, 37);] contributes, by the calculation gate. *)
Lemma ifdef_calculation_cases (cfg : Config) (called : trace) :
  ifdef_calculation cfg = Some called ->
  (defined (CONFIG_CALCULATION cfg) = false /\ called = [])
  \/ (defined (CONFIG_CALCULATION cfg) = true
      /\ exists out, calc cfg 73 37 = Some out /\ called = Call 73 37 :: out).
Proof.
  unfold ifdef_calculation.
  destruct (defined (CONFIG_CALCULATION cfg)).
  - destruct (calc cfg 73 37) as [out|] eqn:E; [|discriminate].
    intros H. injection H as <-. right. eauto.
  - intros H. injection H as <-. now left.
Qed.

(** C7: when the mode is Addition, the program prints the banner
    "Adding 37 to 73" and then, if the calculation gate is enabled, the
    line "73 + 37 = 110" (in debug builds [calc] prints its operation name
    in between); without debug output these are the lines that follow
    "Calculation Example". *)
Theorem main_addition (cfg : Config) (argc : Z) (argv : list string) :
  main_mode cfg = Some Addition ->
  exists t,
    main cfg argc argv = Some (t, 0)
    /\ t = (ifdef_debug cfg [Print (MODE cfg)]
            ++ [Print ("Calculation Example" ++ nl); Print ("Adding 37 to 73" ++ nl)]
            ++ (if defined (CONFIG_CALCULATION cfg)
                then Call 73 37
                     :: ifdef_debug cfg [Print "Addition"]
                     ++ [Print ("73 + 37 = 110" ++ nl)]
                else []))%list
    /\ (defined (CONFIG_DEBUG cfg) = false ->
        lines (stdout t)
        = "Calculation Example" :: "Adding 37 to 73"
          :: (if defined (CONFIG_CALCULATION cfg) then ["73 + 37 = 110"] else [])).
Proof.
  intros Hm.
  destruct (main_run cfg argc argv Addition Hm) as (called & Hcalled & Hmain).
  pose proof (main_mode_calc_mode cfg Addition Hm) as Hadd.
  unfold ifdef_calculation, calc, calc_body in Hcalled. rewrite Hadd in Hcalled.
  eexists. split; [exact Hmain|].
  destruct (defined (CONFIG_CALCULATION cfg));
    injection Hcalled as <-; (split; [reflexivity|]);
    intros Hd; unfold ifdef_debug; rewrite Hd; reflexivity.
Qed.

Lemma main_addition_witness :
  exists t,
    main cfg_addition 1 ["example"] = Some (t, 0)
    /\ t = (ifdef_debug cfg_addition [Print (MODE cfg_addition)]
            ++ [Print ("Calculation Example" ++ nl); Print ("Adding 37 to 73" ++ nl)]
            ++ (if defined (CONFIG_CALCULATION cfg_addition)
                then Call 73 37
                     :: ifdef_debug cfg_addition [Print "Addition"]
                     ++ [Print ("73 + 37 = 110" ++ nl)]
                else []))%list
    /\ (defined (CONFIG_DEBUG cfg_addition) = false ->
        lines (stdout t)
        = "Calculation Example" :: "Adding 37 to 73"
          :: (if defined (CONFIG_CALCULATION cfg_addition)
              then ["73 + 37 = 110"] else [])).
Proof.
  apply (main_addition cfg_addition 1 ["example"]). reflexivity.
Defined.

(** C3, as stated, fails: with the mode Subtraction and the calculation
    gate closed the run ends after the banner; no line "73 - 37 = 36" is
    printed. *)
Lemma subtraction_without_result_line :
  main_mode cfg_subtraction_gate_off = Some Subtraction
  /\ main cfg_subtraction_gate_off 1 ["example"]
     = Some ([Print ("Calculation Example" ++ nl);
              Print ("Substracting 37 from 73" ++ nl)], 0)
  /\ ~ In "73 - 37 = 36"
       (lines (stdout [Print ("Calculation Example" ++ nl);
                       Print ("Substracting 37 from 73" ++ nl)])).
Proof.
  split; [reflexivity|]. split; [reflexivity|].
  simpl. intros [H|[H|[]]]; discriminate H.
Qed.

(** C3, amended: when the mode is Subtraction, the program prints the
    banner "Substracting 37 from 73" after the optional debug banner and
    "Calculation Example"; with the calculation gate closed nothing
    follows, with the gate open what follows is the call calc(73, 37) and
    its output. *)
Theorem main_subtraction (cfg : Config) (argc : Z) (argv : list string) :
  main_mode cfg = Some Subtraction ->
  exists rest,
    main cfg argc argv
    = Some ((ifdef_debug cfg [Print (MODE cfg)]
             ++ [Print ("Calculation Example" ++ nl);
                 Print ("Substracting 37 from 73" ++ nl)]
             ++ rest)%list, 0)
    /\ (defined (CONFIG_CALCULATION cfg) = false -> rest = [])
    /\ (defined (CONFIG_CALCULATION cfg) = true ->
        exists out, calc cfg 73 37 = Some out /\ rest = Call 73 37 :: out).
Proof.
  intros Hm.
  destruct (main_run cfg argc argv Subtraction Hm) as (called & Hcalled & Hmain).
  exists called. split; [exact Hmain|].
  destruct (ifdef_calculation_cases cfg called Hcalled) as [[Hoff ->]|[Hon Hout]].
  - split; [reflexivity | congruence].
  - split; [congruence | intros _; exact Hout].
Qed.

Lemma main_subtraction_witness :
  exists rest,
    main cfg_subtraction_gate_off 1 ["example"]
    = Some ((ifdef_debug cfg_subtraction_gate_off
               [Print (MODE cfg_subtraction_gate_off)]
             ++ [Print ("Calculation Example" ++ nl);
                 Print ("Substracting 37 from 73" ++ nl)]
             ++ rest)%list, 0)
    /\ (defined (CONFIG_CALCULATION cfg_subtraction_gate_off) = false -> rest = [])
    /\ (defined (CONFIG_CALCULATION cfg_subtraction_gate_off) = true ->
        exists out,
          calc cfg_subtraction_gate_off 73 37 = Some out
          /\ rest = Call 73 37 :: out).
Proof.
  apply (main_subtraction cfg_subtraction_gate_off 1 ["example"]). reflexivity.
Defined.

(** With the gate open the same configuration prints the banner of the
    subtraction and the result line of the addition: [main] tests the
    value of CONFIG_SUBSTRACTION, [calc] whether CONFIG_ADDITION is
    defined. *)
Lemma subtraction_banner_addition_line :
  main cfg_subtraction_gate_on 1 ["example"]
  = Some ([Print ("Calculation Example" ++ nl);
           Print ("Substracting 37 from 73" ++ nl);
           Call 73 37;
           Print ("73 + 37 = 110" ++ nl)], 0).
Proof. reflexivity. Qed.

(** C4, as stated, fails: in mode None with the calculation gate open,
    [calc] is called and a result line is printed. *)
Lemma no_operation_gate_on_calls_calc :
  main_mode cfg_none_gate_on = Some NoOperation
  /\ exists t,
       main cfg_none_gate_on 1 ["example"] = Some (t, 0)
       /\ In (Call 73 37) t
       /\ In "73 + 37 = 110" (lines (stdout t)).
Proof.
  split; [reflexivity|].
  eexists. split; [reflexivity|].
  split; simpl; tauto.
Qed.

(** C4, amended: in mode None the program prints
    "No operation specified; nothing to calculate" whatever the other
    flags are; when the calculation gate is closed, [calc] is not called
    and the message ends the output. *)
Theorem main_no_operation (cfg : Config) (argc : Z) (argv : list string) :
  main_mode cfg = Some NoOperation ->
  exists t,
    main cfg argc argv = Some (t, 0)
    /\ In (Print ("No operation specified; nothing to calculate" ++ nl)) t
    /\ (defined (CONFIG_CALCULATION cfg) = false ->
        t = (ifdef_debug cfg [Print (MODE cfg)]
             ++ [Print ("Calculation Example" ++ nl);
                 Print ("No operation specified; nothing to calculate" ++ nl)])%list
        /\ forall a b, ~ In (Call a b) t).
Proof.
  intros Hm.
  destruct (main_run cfg argc argv NoOperation Hm) as (called & Hcalled & Hmain).
  eexists. split; [exact Hmain|]. split.
  - apply in_or_app. right. simpl. auto.
  - intros Hoff.
    destruct (ifdef_calculation_cases cfg called Hcalled) as [[_ ->]|[Hon _]];
      [|congruence].
    split; [reflexivity|].
    intros a b Hin. unfold ifdef_debug in Hin.
    destruct (defined (CONFIG_DEBUG cfg)); simpl in Hin;
      intuition discriminate.
Qed.

Lemma main_no_operation_witness :
  exists t,
    main cfg_none_gate_off 1 ["example"] = Some (t, 0)
    /\ In (Print ("No operation specified; nothing to calculate" ++ nl)) t
    /\ (defined (CONFIG_CALCULATION cfg_none_gate_off) = false ->
        t = (ifdef_debug cfg_none_gate_off [Print (MODE cfg_none_gate_off)]
             ++ [Print ("Calculation Example" ++ nl);
                 Print ("No operation specified; nothing to calculate" ++ nl)])%list
        /\ forall a b, ~ In (Call a b) t).
Proof.
  apply (main_no_operation cfg_none_gate_off 1 ["example"]). reflexivity.
Defined.

(** C5: with Debug enabled and the mode Addition, the debug banner (the
    line naming the mode, by the specification's description of MODE) is
    printed first: an extra line "Addition" precedes "Calculation Example"
    and the banner "Adding 37 to 73". *)
Theorem main_debug_addition (cfg : Config) (argc : Z) (argv : list string) :
  defined (CONFIG_DEBUG cfg) = true ->
  main_mode cfg = Some Addition ->
  MODE cfg = mode_name_line Addition ->
  exists rest,
    main cfg argc argv
    = Some (Print ("Addition" ++ nl)
            :: Print ("Calculation Example" ++ nl)
            :: Print ("Adding 37 to 73" ++ nl)
            :: rest, 0)
    /\ lines (stdout (Print ("Addition" ++ nl)
                      :: Print ("Calculation Example" ++ nl)
                      :: Print ("Adding 37 to 73" ++ nl)
                      :: rest))
       = "Addition" :: "Calculation Example" :: "Adding 37 to 73"
         :: lines (stdout rest).
Proof.
  intros Hdebug Hm Hmode.
  destruct (main_run cfg argc argv Addition Hm) as (called & _ & Hmain).
  unfold ifdef_debug in Hmain. rewrite Hdebug, Hmode in Hmain.
  exists called. split; [exact Hmain|].
  cbn [stdout].
  rewrite !append_assoc.
  now rewrite !lines_cons by reflexivity.
Qed.

Lemma main_debug_addition_witness :
  exists rest,
    main cfg_addition_debug 1 ["example"]
    = Some (Print ("Addition" ++ nl)
            :: Print ("Calculation Example" ++ nl)
            :: Print ("Adding 37 to 73" ++ nl)
            :: rest, 0)
    /\ lines (stdout (Print ("Addition" ++ nl)
                      :: Print ("Calculation Example" ++ nl)
                      :: Print ("Adding 37 to 73" ++ nl)
                      :: rest))
       = "Addition" :: "Calculation Example" :: "Adding 37 to 73"
         :: lines (stdout rest).
Proof.
  apply (main_debug_addition cfg_addition_debug 1 ["example"]); reflexivity.
Defined.

(** The first character of a printed integer is a digit or the sign. *)
Lemma fmt_i_head (z : Z) :
  exists c s, fmt_i z = String c s /\ c <> "A"%char.
Proof.
  unfold fmt_i.
  destruct (Z.to_int z) as [d|d]; simpl.
  - destruct d; simpl; eexists; eexists; (split; [reflexivity | discriminate]).
  - eexists; eexists; (split; [reflexivity | discriminate]).
Qed.

Lemma append_inj_l (s a b : string) : s ++ a = s ++ b -> a = b.
Proof.
  induction s as [|c s IH]; simpl; intros H.
  - exact H.
  - injection H as H. auto.
Qed.

(** C6, as stated, fails: in a debug build with the calculation gate open,
    standard output is not the listed sequence, whatever mode line,
    operands, symbol and result are put in: the operation name printed by
    [calc] stands between the mode line and the result line. *)
Lemma debug_output_not_as_listed :
  compiles cfg_addition_debug = true
  /\ exists t,
       main cfg_addition_debug 1 ["example"] = Some (t, 0)
       /\ lines (stdout t)
          = ["Addition"; "Calculation Example"; "Adding 37 to 73";
             "Addition73 + 37 = 110"]
       /\ forall m a symbol b result,
            stdout t <> listed_output cfg_addition_debug m a symbol b result.
Proof.
  split; [reflexivity|].
  eexists. split; [reflexivity|]. split; [reflexivity|].
  intros m a symbol b result H.
  unfold listed_output in H.
  change (stdout _) with
    (("Addition" ++ nl) ++ ("Calculation Example" ++ nl)
     ++ ("Adding 37 to 73" ++ nl ++ "Addition73 + 37 = 110" ++ nl)) in H.
  change (if defined (CONFIG_DEBUG cfg_addition_debug) then _ else _)
    with ("Addition" ++ nl) in H.
  change (if defined (CONFIG_CALCULATION cfg_addition_debug) then ?x else _)
    with x in H.
  apply append_inj_l in H. apply append_inj_l in H.
  destruct m; try discriminate H.
  apply (append_inj_l ("Adding 37 to 73" ++ nl)) in H.
  unfold printf_result in H.
  destruct (fmt_i_head a) as (c & s & Hs & Hc). rewrite Hs in H.
  simpl in H. injection H as Hhead _. congruence.
Qed.

(** C6, amended: for every configuration that compiles, standard output
    is, in this order: the debug banner (only if Debug is enabled),
    "Calculation Example", exactly one mode-selected line, and, only if
    the calculation gate is enabled, the operation name without line feed
    (only if Debug is enabled) directly followed by the line made of
    operand1, symbol, operand2 and result. *)
Theorem main_output_order (cfg : Config) (argc : Z) (argv : list string) :
  compiles cfg = true ->
  exists t m name result op,
    main cfg argc argv = Some (t, 0)
    /\ main_mode cfg = Some m
    /\ calc_case 73 37 name result op
    /\ calculate cfg 73 37 = Some (result, op)
    /\ stdout t
       = (if defined (CONFIG_DEBUG cfg) then MODE cfg else "")
         ++ ("Calculation Example" ++ nl)
         ++ banner m
         ++ (if defined (CONFIG_CALCULATION cfg)
             then (if defined (CONFIG_DEBUG cfg) then name else "")
                  ++ printf_result 73 op 37 result
             else "").
Proof.
  intros Hc.
  apply main_mode_compiles in Hc as [m Hm].
  destruct (main_run cfg argc argv m Hm) as (called & Hcalled & Hmain).
  assert (Hmode : calc_mode cfg <> NoOperation)
    by (rewrite (main_mode_calc_mode cfg m Hm); discriminate).
  destruct (calc_some cfg 73 37 Hmode) as (name & result & op & Hname & Hbody & Hcalc).
  exists (ifdef_debug cfg [Print (MODE cfg)]
          ++ [Print ("Calculation Example" ++ nl)]
          ++ [Print (banner m)] ++ called)%list, m, name, result, op.
  split; [exact Hmain|]. split; [exact Hm|]. split; [exact Hname|].
  split; [unfold calculate; now rewrite Hbody|].
  rewrite !stdout_app.
  destruct (ifdef_calculation_cases cfg called Hcalled)
    as [[Hoff ->]|[Hon (out & Hout & ->)]].
  - rewrite Hoff. unfold ifdef_debug.
    destruct (defined (CONFIG_DEBUG cfg)); simpl; now rewrite ?append_empty_r.
  - rewrite Hon. rewrite Hcalc in Hout. injection Hout as <-.
    cbn [stdout]. rewrite stdout_app. unfold ifdef_debug.
    destruct (defined (CONFIG_DEBUG cfg)); simpl; now rewrite ?append_empty_r.
Qed.

Lemma main_output_order_witness :
  exists t m name result op,
    main cfg_addition_debug 1 ["example"] = Some (t, 0)
    /\ main_mode cfg_addition_debug = Some m
    /\ calc_case 73 37 name result op
    /\ calculate cfg_addition_debug 73 37 = Some (result, op)
    /\ stdout t
       = (if defined (CONFIG_DEBUG cfg_addition_debug)
          then MODE cfg_addition_debug else "")
         ++ ("Calculation Example" ++ nl)
         ++ banner m
         ++ (if defined (CONFIG_CALCULATION cfg_addition_debug)
             then (if defined (CONFIG_DEBUG cfg_addition_debug) then name else "")
                  ++ printf_result 73 op 37 result
             else "").
Proof.
  apply (main_output_order cfg_addition_debug 1 ["example"]). reflexivity.
Defined.

(** C8: every configuration that compiles gives a run, for every argc and
    argv, and the run ends with exit code 0. *)
Theorem main_exit_code (cfg : Config) (argc : Z) (argv : list string) :
  compiles cfg = true ->
  exists t, main cfg argc argv = Some (t, 0).
Proof.
  intros Hc.
  apply main_mode_compiles in Hc as [m Hm].
  destruct (main_run cfg argc argv m Hm) as (called & _ & Hmain).
  eauto.
Qed.

Lemma main_exit_code_witness :
  exists t, main cfg_subtraction_gate_on 3 ["example"; "-v"; "x"] = Some (t, 0).
Proof.
  apply (main_exit_code cfg_subtraction_gate_on 3 ["example"; "-v"; "x"]).
  reflexivity.
Defined.

(** C9: for a fixed configuration, two runs with different argc and argv
    have the same events, hence the same standard output, and the same
    exit code. *)
Theorem main_ignores_arguments (cfg : Config)
    (argc argc' : Z) (argv argv' : list string) :
  main cfg argc argv = main cfg argc' argv'
  /\ option_map (fun r => stdout (fst r)) (main cfg argc argv)
     = option_map (fun r => stdout (fst r)) (main cfg argc' argv')
  /\ option_map snd (main cfg argc argv) = option_map snd (main cfg argc' argv').
Proof.
  assert (H : main cfg argc argv = main cfg argc' argv').
  { unfold main. destruct (compiles cfg); reflexivity. }
  rewrite H. auto.
Qed.

(** C10: in debug builds [calc] prints the operation name ("Addition" or
    "Substraction") without a line feed, directly before the result line:
    the two make one line of output. *)
Theorem calc_debug_same_line (cfg : Config) (a b : Z) :
  defined (CONFIG_DEBUG cfg) = true ->
  calc_mode cfg <> NoOperation ->
  exists name result op,
    calc_case a b name result op
    /\ calc cfg a b = Some [Print name; Print (result_text a op b result ++ nl)]
    /\ no_lf name = true
    /\ lines (stdout [Print name; Print (result_text a op b result ++ nl)])
       = [name ++ result_text a op b result].
Proof.
  intros Hdebug Hmode.
  destruct (calc_some cfg a b Hmode) as (name & result & op & Hcase & _ & Hcalc).
  exists name, result, op.
  unfold ifdef_debug in Hcalc. rewrite Hdebug, printf_result_text in Hcalc.
  split; [exact Hcase|]. split; [exact Hcalc|].
  assert (Hname : no_lf name = true)
    by (destruct Hcase as [(-> & _)|(-> & _)]; reflexivity).
  assert (Hop : Ascii.eqb op LF = false)
    by (destruct Hcase as [(_ & _ & ->)|(_ & _ & ->)]; reflexivity).
  split; [exact Hname|].
  cbn [stdout]. rewrite append_empty_r, <- append_assoc.
  apply lines_closed.
  rewrite no_lf_app, Hname. now apply no_lf_result_text.
Qed.

Lemma calc_debug_same_line_witness :
  exists name result op,
    calc_case 73 37 name result op
    /\ calc cfg_addition_debug 73 37
       = Some [Print name; Print (result_text 73 op 37 result ++ nl)]
    /\ no_lf name = true
    /\ lines (stdout [Print name; Print (result_text 73 op 37 result ++ nl)])
       = [name ++ result_text 73 op 37 result].
Proof.
  apply (calc_debug_same_line cfg_addition_debug 73 37).
  - reflexivity.
  - discriminate.
Defined.

(** The line of C10 on the operands of [main]. *)
Lemma calc_debug_line_example :
  option_map (fun t => lines (stdout t)) (calc cfg_addition_debug 73 37)
  = Some ["Addition73 + 37 = 110"].
Proof. reflexivity. Qed.

(** * Further properties of calc and main *)

(** ** Which body of calc a run uses *)

Lemma run_calc_mode (cfg : Config) (argc : Z) (argv : list string)
    (t : trace) (code : Z) :
  main cfg argc argv = Some (t, code) -> calc_mode cfg = Addition.
Proof.
  intros Hrun. unfold main in Hrun.
  destruct (compiles cfg) eqn:Hc; [|discriminate].
  apply main_mode_compiles in Hc as [m Hm].
  exact (main_mode_calc_mode cfg m Hm).
Qed.

(** Whenever main.c has a run, [calc] computes sums: [main] reads
    CONFIG_ADDITION as an expression, so the symbol is defined, and the
    preprocessor keeps the first body of [calc], whatever banner [main]
    prints.  The result is the sum as an [int] holds it, the sum itself
    when it is a value of [int]. *)
Theorem run_calculates_sums (cfg : Config) (argc : Z) (argv : list string)
    (t : trace) (code : Z) :
  main cfg argc argv = Some (t, code) ->
  calc_mode cfg = Addition
  /\ (forall a b, calculate cfg a b = Some (as_int (a + b), "+"%char))
  /\ (forall a b, int_range (a + b) -> calculate cfg a b = Some (a + b, "+"%char)).
Proof.
  intros Hrun.
  pose proof (run_calc_mode cfg argc argv t code Hrun) as Hadd.
  assert (H : forall a b, calculate cfg a b = Some (as_int (a + b), "+"%char)).
  { intros a b. unfold calculate, calc_body. now rewrite Hadd. }
  split; [exact Hadd|]. split; [exact H|].
  intros a b Hsum. now rewrite H, (as_int_fits _ Hsum).
Qed.

Lemma run_calculates_sums_witness :
  calc_mode cfg_subtraction_gate_on = Addition
  /\ (forall a b,
        calculate cfg_subtraction_gate_on a b = Some (as_int (a + b), "+"%char))
  /\ (forall a b, int_range (a + b) ->
        calculate cfg_subtraction_gate_on a b = Some (a + b, "+"%char)).
Proof.
  apply (run_calculates_sums cfg_subtraction_gate_on 1 ["example"]
           [Print ("Calculation Example" ++ nl);
            Print ("Substracting 37 from 73" ++ nl);
            Call 73 37;
            Print ("73 + 37 = 110" ++ nl)] 0).
  reflexivity.
Defined.

(** CONFIG_SUBTRACTION, the symbol of the second body of [calc], has no
    influence on the program: redefining or undefining it changes neither
    whether there is a run nor what the run does. *)
Theorem main_ignores_SUBTRACTION (cfg : Config) (m : macro)
    (argc : Z) (argv : list string) :
  main (with_SUBTRACTION cfg m) argc argv = main cfg argc argv.
Proof.
  unfold main, compiles, main_mode, ifdef_calculation, calc, calc_body,
    calc_mode, ifdef_debug.
  simpl.
  destruct (CONFIG_ADDITION cfg) as [a|]; simpl.
  - reflexivity.
  - destruct (defined m), (defined (CONFIG_SUBTRACTION cfg)); reflexivity.
Qed.

(** ** Calls of calc *)

Lemma calls_app (t1 t2 : trace) :
  calls (t1 ++ t2)%list = (calls t1 ++ calls t2)%list.
Proof.
  induction t1 as [|[s|a b] t1 IH]; simpl; congruence.
Qed.

(** A run calls [calc] once, with the operands 73 and 37, when
    CONFIG_CALCULATION is defined, and never otherwise. *)
Theorem main_calls (cfg : Config) (argc : Z) (argv : list string)
    (t : trace) (code : Z) :
  main cfg argc argv = Some (t, code) ->
  calls t = if defined (CONFIG_CALCULATION cfg) then [(73, 37)] else [].
Proof.
  intros Hrun.
  pose proof (run_calc_mode cfg argc argv t code Hrun) as Hadd.
  unfold main in Hrun.
  destruct (compiles cfg); [|discriminate].
  destruct (main_mode cfg) as [m|]; [|discriminate].
  unfold ifdef_calculation, calc, calc_body in Hrun. rewrite Hadd in Hrun.
  unfold ifdef_debug in Hrun.
  destruct (defined (CONFIG_CALCULATION cfg)), (defined (CONFIG_DEBUG cfg));
    injection Hrun as <- _; reflexivity.
Qed.

Lemma main_calls_witness :
  calls [Print ("Calculation Example" ++ nl);
         Print ("Substracting 37 from 73" ++ nl);
         Call 73 37;
         Print ("73 + 37 = 110" ++ nl)]
  = if defined (CONFIG_CALCULATION cfg_subtraction_gate_on)
    then [(73, 37)] else [].
Proof.
  apply (main_calls cfg_subtraction_gate_on 1 ["example"] _ 0).
  reflexivity.
Defined.

(** ** Shape of the output *)

Lemma banner_closed (m : OperationMode) : exists s, banner m = s ++ nl.
Proof.
  destruct m;
    [exists "Adding 37 to 73"
    |exists "Substracting 37 from 73"
    |exists "No operation specified; nothing to calculate"];
    reflexivity.
Qed.

(** Standard output of every run ends with a line feed, whatever the text
    of MODE is: the last text printed is the mode line or the result
    line. *)
Theorem main_output_closed (cfg : Config) (argc : Z) (argv : list string)
    (t : trace) (code : Z) :
  main cfg argc argv = Some (t, code) ->
  exists s, stdout t = s ++ nl.
Proof.
  intros Hrun.
  pose proof (run_calc_mode cfg argc argv t code Hrun) as Hadd.
  unfold main in Hrun.
  destruct (compiles cfg); [|discriminate].
  destruct (main_mode cfg) as [m|]; [|discriminate].
  unfold ifdef_calculation, calc, calc_body in Hrun. rewrite Hadd in Hrun.
  destruct (defined (CONFIG_CALCULATION cfg)); injection Hrun as <- _.
  - rewrite !stdout_app. cbn [stdout].
    rewrite stdout_app. cbn [stdout].
    rewrite printf_result_text, append_empty_r.
    rewrite <- !append_assoc. eauto.
  - rewrite !stdout_app. cbn [stdout].
    destruct (banner_closed m) as [s ->].
    rewrite !append_empty_r, <- !append_assoc. eauto.
Qed.

Lemma main_output_closed_witness :
  exists s,
    stdout [Print ("Calculation Example" ++ nl);
            Print ("Substracting 37 from 73" ++ nl)]
    = s ++ nl.
Proof.
  apply (main_output_closed cfg_subtraction_gate_off 1 ["example"] _ 0).
  reflexivity.
Defined.

(** Debug output is only added: defining CONFIG_DEBUG, with any value,
    leaves the call of [calc] as it is but for the operation name printed
    in front of the result line. *)
Theorem calc_debug_adds (cfg : Config) (v : Z) (a b : Z) (t : trace) :
  calc (with_DEBUG cfg None) a b = Some t ->
  exists name result op,
    calc_case a b name result op
    /\ t = [Print (printf_result a op b result)]
    /\ calc (with_DEBUG cfg (Some v)) a b = Some (Print name :: t).
Proof.
  unfold calc, calc_body, calc_mode, ifdef_debug, calc_case, add, sub. simpl.
  destruct (defined (CONFIG_ADDITION cfg)).
  - intros H. injection H as <-.
    exists "Addition", (as_int (a + b)), "+"%char. auto.
  - destruct (defined (CONFIG_SUBTRACTION cfg)); [|discriminate].
    intros H. injection H as <-.
    exists "Substraction", (as_int (a - b)), "-"%char. auto 6.
Qed.

Lemma calc_debug_adds_witness :
  exists name result op,
    calc_case 73 37 name result op
    /\ [Print ("73 - 37 = 36" ++ nl)] = [Print (printf_result 73 op 37 result)]
    /\ calc (with_DEBUG cfg_calc_subtraction (Some 0)) 73 37
       = Some (Print name :: [Print ("73 - 37 = 36" ++ nl)]).
Proof.
  apply (calc_debug_adds cfg_calc_subtraction 0 73 37).
  reflexivity.
Defined.

(** The run of a debug build is the run of the build without
    CONFIG_DEBUG with the text of MODE printed first and, when [calc] is
    called, its operation name printed before the result line; title,
    mode line, call and exit code are the same. *)
Theorem main_debug_adds (cfg : Config) (v : Z) (argc : Z) (argv : list string)
    (t : trace) (code : Z) :
  main (with_DEBUG cfg None) argc argv = Some (t, code) ->
  exists m called,
    main_mode cfg = Some m
    /\ t = (Print ("Calculation Example" ++ nl) :: Print (banner m) :: called)%list
    /\ main (with_DEBUG cfg (Some v)) argc argv
       = Some (Print (MODE cfg)
               :: Print ("Calculation Example" ++ nl)
               :: Print (banner m)
               :: match called with
                  | c :: out => c :: Print "Addition" :: out
                  | [] => []
                  end, code).
Proof.
  intros Hrun.
  pose proof (run_calc_mode _ argc argv t code Hrun) as Hadd.
  revert Hrun Hadd.
  unfold main, compiles, main_mode, ifdef_calculation, calc, calc_body,
    calc_mode, ifdef_debug. simpl.
  destruct (CONFIG_ADDITION cfg) as [x|]; simpl;
    [|intros _ H; destruct (defined (CONFIG_SUBTRACTION cfg)); discriminate H].
  destruct (CONFIG_SUBSTRACTION cfg) as [y|]; simpl; [|discriminate].
  intros Hrun _.
  destruct (defined (CONFIG_CALCULATION cfg)); simpl in *;
    injection Hrun as <- <-; do 2 eexists; repeat split.
Qed.

Lemma main_debug_adds_witness :
  exists m called,
    main_mode cfg_none_gate_on = Some m
    /\ [Print ("Calculation Example" ++ nl);
        Print ("No operation specified; nothing to calculate" ++ nl);
        Call 73 37;
        Print ("73 + 37 = 110" ++ nl)]
       = (Print ("Calculation Example" ++ nl) :: Print (banner m) :: called)%list
    /\ main (with_DEBUG cfg_none_gate_on (Some 1)) 1 ["example"]
       = Some (Print (MODE cfg_none_gate_on)
               :: Print ("Calculation Example" ++ nl)
               :: Print (banner m)
               :: match called with
                  | c :: out => c :: Print "Addition" :: out
                  | [] => []
                  end, 0).
Proof.
  apply (main_debug_adds cfg_none_gate_on 1 1 ["example"]).
  reflexivity.
Defined.

(** ** The result line can be read back *)

Lemma avoids_space_uint (d : Decimal.uint) :
  avoids " " (NilEmpty.string_of_uint d) = true.
Proof.
  induction d; simpl; auto.
Qed.

Lemma avoids_space_fmt_i (z : Z) : avoids " " (fmt_i z) = true.
Proof.
  unfold fmt_i.
  destruct (Z.to_int z) as [d|d]; destruct d; simpl;
    auto using avoids_space_uint.
Qed.

Lemma no_lf_avoids (s : string) : avoids LF s = no_lf s.
Proof.
  induction s as [|c s IH]; simpl; congruence.
Qed.

(** Two texts cut at the first occurrence of a character agree piece by
    piece. *)
Lemma cut_at (c : ascii) (s1 s2 r1 r2 : string) :
  avoids c s1 = true -> avoids c s2 = true ->
  s1 ++ String c r1 = s2 ++ String c r2 ->
  s1 = s2 /\ r1 = r2.
Proof.
  revert s2.
  induction s1 as [|x s1 IH]; intros [|y s2]; simpl; intros H1 H2 H.
  - injection H as ->. auto.
  - injection H as -> _. now rewrite Ascii.eqb_refl in H2.
  - injection H as -> _. now rewrite Ascii.eqb_refl in H1.
  - injection H as -> H.
    apply andb_true_iff in H1 as [_ H1].
    apply andb_true_iff in H2 as [_ H2].
    destruct (IH s2 H1 H2 H) as [-> ->]. auto.
Qed.

Lemma to_int_proper (z : Z) :
  Z.to_int z <> Decimal.Pos Decimal.Nil /\ Z.to_int z <> Decimal.Neg Decimal.Nil.
Proof.
  destruct z as [|p|p]; simpl; split; try discriminate;
    intros H; injection H as H; exact (DecimalPos.Unsigned.to_uint_nonnil p H).
Qed.

(** What [%i] prints is read back as the integer printed. *)
Lemma fmt_i_read (z : Z) :
  option_map Z.of_int (NilZero.int_of_string (fmt_i z)) = Some z.
Proof.
  unfold fmt_i.
  destruct (to_int_proper z) as [Hp Hn].
  rewrite (NilZero.isi _ Hp Hn). simpl.
  now rewrite DecimalZ.of_to.
Qed.

Lemma fmt_i_inj (z z' : Z) : fmt_i z = fmt_i z' -> z = z'.
Proof.
  intros H.
  pose proof (fmt_i_read z) as Hz. rewrite H, fmt_i_read in Hz.
  now injection Hz.
Qed.

(** The line that [calc] prints determines the operands, the symbol and
    the result that went into it. *)
Lemma printf_result_inj (a b r a' b' r' : Z) (op op' : ascii) :
  printf_result a op b r = printf_result a' op' b' r' ->
  a = a' /\ op = op' /\ b = b' /\ r = r'.
Proof.
  unfold printf_result. intros H.
  apply cut_at in H as [Ha H]; auto using avoids_space_fmt_i.
  injection H as -> H.
  apply cut_at in H as [Hb H]; auto using avoids_space_fmt_i.
  injection H as H.
  apply (cut_at LF _ _ "" "") in H as [Hr _];
    try (rewrite no_lf_avoids; apply no_lf_fmt_i).
  auto using fmt_i_inj.
Qed.

(** Two calls of [calc] that produce the same events had the same
    operands: in either body the result line names both of them. *)
Theorem calc_inj (cfg : Config) (a b a' b' : Z) (t : trace) :
  calc cfg a b = Some t ->
  calc cfg a' b' = Some t ->
  a = a' /\ b = b'.
Proof.
  unfold calc, calc_body.
  destruct (calc_mode cfg); try discriminate; intros H H';
    rewrite <- H in H'; injection H' as H';
    apply app_inv_head in H'; injection H' as H';
    apply printf_result_inj in H' as (-> & _ & -> & _); auto.
Qed.

Lemma calc_inj_witness : 73 = 73 /\ 37 = 37.
Proof.
  apply (calc_inj cfg_calc_subtraction 73 37 73 37
           [Print ("73 - 37 = 36" ++ nl)]); reflexivity.
Defined.
